(** * Timeslot: a toggleable time window for Home Assistant

    A shallow embedding of [custom_components/timeslot/__init__.py]:
    the [Timeslot] entity (an enabled flag and a [start, end) window of
    local times of day), its membership test [is_on], its mutators, and
    the restore-on-start merge of [async_added_to_hass].

    Conventions.
    - A [datetime.time] is a record of its four numeric fields; the
      entity only ever holds naive times (they come from [cv.time] and
      from [datetime.now().time()]), so [tzinfo] is not modelled.
    - [datetime.now().time()] is an input: every operation that reads
      the clock takes [now] as an argument.
    - A dict with a fixed set of optional keys (the configuration, the
      attributes of a state) is a record of options: [None] is the
      absent key.
    - A method that only assigns is a function from [self] to [self].
      A method that may raise is a computation in the monad [M]: it maps
      the entity to the entity as the call leaves it, together with
      either the raised exception or the returned value. What was
      assigned before a [raise] stays assigned.
    - [time.fromisoformat] is modelled on two sides: the texts that
      every version reads as a naive time ([Iso.fromisoformat]) and the
      texts that every version rejects ([Iso.malformed]). On a text
      between the two a run ends as [OutOfModel], about which nothing is
      stated.
    - The host is seen through what the entity does to it: the states it
      writes and the interval listeners it registers.

    The definitions come first, then the facts: the order of times, the
    text form of times, the membership test, the mutators, the restore
    step. *)

From Stdlib Require Import NArith Bool List String Ascii Lia.
Import ListNotations.
Local Open Scope string_scope.
Local Open Scope N_scope.

Set Implicit Arguments.

(* ===================================================================== *)
(** ** Times of day *)
(* ===================================================================== *)

Module Time.

(** [datetime.time(hour, minute, second, microsecond)], naive. *)
Record time : Type := mk
  { hour : N;
    minute : N;
    second : N;
    microsecond : N }.

(** The constructor's range check ([_check_time_fields]). *)
Definition valid (t : time) : bool :=
  (hour t <? 24) && (minute t <? 60) && (second t <? 60)
  && (microsecond t <? 1000000).

(** [time_sys()]: midnight, the default of [start] and [end]. *)
Definition midnight : time := mk 0 0 0 0.

(** [time._cmp]: the tuples (hour, minute, second, microsecond) are
    compared lexicographically. *)
Definition lex (c : comparison) (k : comparison) : comparison :=
  match c with
  | Eq => k
  | Lt => Lt
  | Gt => Gt
  end.

Definition cmp (a b : time) : comparison :=
  lex (hour a ?= hour b)
    (lex (minute a ?= minute b)
       (lex (second a ?= second b)
          (microsecond a ?= microsecond b))).

(** [a <= b] is [a._cmp(b) <= 0], [a < b] is [a._cmp(b) < 0]. *)
Definition leb (a b : time) : bool :=
  match cmp a b with
  | Gt => false
  | _ => true
  end.

Definition ltb (a b : time) : bool :=
  match cmp a b with
  | Lt => true
  | _ => false
  end.

(** The order as propositions, for statements. *)
Definition le (a b : time) : Prop := cmp a b <> Gt.
Definition lt (a b : time) : Prop := cmp a b = Lt.

End Time.

Definition time : Type := Time.time.

Declare Scope time_scope.
Delimit Scope time_scope with time.
Infix "<=?" := Time.leb (at level 70) : time_scope.
Infix "<?" := Time.ltb (at level 70) : time_scope.
Infix "<=" := Time.le : time_scope.
Infix "<" := Time.lt : time_scope.
Infix ">" := (fun a b => Time.lt b a) (only parsing) : time_scope.
Infix ">=" := (fun a b => Time.le b a) (only parsing) : time_scope.

(* ===================================================================== *)
(** ** Text form of times: [time.isoformat] and [time.fromisoformat] *)
(* ===================================================================== *)

Module Iso.

(** ['0' + d] for a decimal digit [d]. *)
Definition digit (d : N) : ascii := ascii_of_N (48 + d mod 10).

(** [k] decimal digits of [n], zero padded: the [{:02d}] and [{:06d}]
    of [_format_time]. *)
Fixpoint padded (k : nat) (n : N) : string :=
  match k with
  | O => EmptyString
  | S k' => padded k' (n / 10) ++ String (digit n) EmptyString
  end.

(** [time.isoformat()] with the default [timespec='auto']:
    [HH:MM:SS], followed by [.ffffff] when the microsecond is not 0. *)
Definition isoformat (t : time) : string :=
  padded 2 (Time.hour t) ++ ":" ++ padded 2 (Time.minute t) ++ ":"
  ++ padded 2 (Time.second t)
  ++ (if Time.microsecond t =? 0 then ""
      else "." ++ padded 6 (Time.microsecond t)).

Definition digit_val (c : ascii) : option N :=
  let n := N_of_ascii c in
  if (48 <=? n) && (n <=? 57) then Some (n - 48) else None.

(** Reads exactly [k] decimal digits; [None] when one is missing. *)
Fixpoint parse_digits (k : nat) (s : string) (acc : N) : option (N * string) :=
  match k with
  | O => Some (acc, s)
  | S k' =>
      match s with
      | String c s' =>
          match digit_val c with
          | Some d => parse_digits k' s' (10 * acc + d)
          | None => None
          end
      | EmptyString => None
      end
  end.

(** The fraction after the dot: three digits (milliseconds) or six
    (microseconds), and nothing after them. *)
Definition parse_fraction (s : string) : option N :=
  match String.length s with
  | 3%nat =>
      match parse_digits 3 s 0 with
      | Some (ms, _) => Some (ms * 1000)
      | None => None
      end
  | 6%nat =>
      match parse_digits 6 s 0 with
      | Some (us, _) => Some us
      | None => None
      end
  | _ => None
  end.

(** After the seconds: the end of the text, or a dot and a fraction. *)
Definition parse_after_ss (h m s : N) (rest : string) : option time :=
  match rest with
  | EmptyString => Some (Time.mk h m s 0)
  | String "."%char frac =>
      match parse_fraction frac with
      | Some us => Some (Time.mk h m s us)
      | None => None
      end
  | String _ _ => None
  end.

(** After the minutes: the end of the text, or a colon and the seconds. *)
Definition parse_after_mm (h m : N) (rest : string) : option time :=
  match rest with
  | EmptyString => Some (Time.mk h m 0 0)
  | String ":"%char rest' =>
      match parse_digits 2 rest' 0 with
      | Some (s, rest'') => parse_after_ss h m s rest''
      | None => None
      end
  | String _ _ => None
  end.

(** The grammar [HH[:MM[:SS[.fff[fff]]]]] of naive times. *)
Definition parse_hh_mm_ss_ff (text : string) : option time :=
  match parse_digits 2 text 0 with
  | Some (h, rest) =>
      match rest with
      | EmptyString => Some (Time.mk h 0 0 0)
      | String ":"%char rest' =>
          match parse_digits 2 rest' 0 with
          | Some (m, rest'') => parse_after_mm h m rest''
          | None => None
          end
      | String _ _ => None
      end
  | None => None
  end.

(** The texts that [time.fromisoformat] reads as a naive time in every
    version of Python that has it (3.7 and later), with the time it
    returns: the grammar [HH[:MM[:SS[.fff[fff]]]]], then the range check
    of the [time] constructor. [None] says only that the text is not of
    this form: later versions read more forms, and a text with a UTC
    offset gives an offset-aware time, which [Time.time] does not
    represent. *)
Definition fromisoformat (text : string) : option time :=
  match parse_hh_mm_ss_ff text with
  | Some t => if Time.valid t then Some t else None
  | None => None
  end.

(** From Python 3.11 on one leading [T] is skipped. *)
Definition drop_T (text : string) : string :=
  match text with
  | String c rest => if (c =? "T")%char then rest else text
  | EmptyString => text
  end.

(** Texts for which [time.fromisoformat] raises [ValueError] in every
    version: the parser reads the hour first, as exactly two decimal
    digits (after the optional [T]), and no version takes an hour above
    24. So a text that does not begin with two digits, or begins with two
    digits above 24, is rejected whatever follows. *)
Definition malformed (text : string) : bool :=
  match drop_T text with
  | String c1 (String c2 _) =>
      match digit_val c1, digit_val c2 with
      | Some d1, Some d2 => 25 <=? 10 * d1 + d2
      | _, _ => true
      end
  | _ => true
  end.

End Iso.

(* ===================================================================== *)
(** ** Configuration, published state, host *)
(* ===================================================================== *)

Definition DOMAIN : string := "timeslot".
Definition ATTR_NAME : string := "name".
Definition ATTR_ENABLED : string := "enabled".
Definition ATTR_START : string := "start".
Definition ATTR_END : string := "end".
Definition STATE_ON : string := "on".
Definition STATE_OFF : string := "off".

(** The dict [{CONF_ID: id_, **(conf or {})}] that [async_setup] hands to
    the constructor, after validation by [ATTR_SCHEMA]: the id is always
    there, each other key is optional, and a key that is there holds a
    value of the schema's type ([cv.boolean], [cv.time]), never [None].
    A projection is [config.get(key)]: [None] for an absent key. *)
Record ConfigType : Type :=
  { conf_id : string;
    conf_name : option string;
    conf_enabled : option bool;
    conf_start : option time;
    conf_end : option time }.

(** [d.get(key, default)]. *)
Definition get_default {A : Type} (v : option A) (default : A) : A :=
  match v with
  | Some x => x
  | None => default
  end.

(** [x is None]. *)
Definition is_None {A : Type} (v : option A) : bool :=
  match v with
  | Some _ => false
  | None => true
  end.

(** The attributes dict of a published state. In a restored snapshot a
    key may be absent ([None]); a key that is there holds what the entity
    published under it: a boolean, or the text of a time. *)
Record Attributes : Type :=
  { attr_editable : option bool;
    attr_enabled : option bool;
    attr_start : option string;
    attr_end : option string }.

(** A state as written to, and restored from, the host:
    [state.state] and [state.attributes]. *)
Record State : Type :=
  { state_value : string;
    attributes : Attributes }.

(** What the entity does to its host: the states it wrote through
    [async_write_ha_state], oldest first, and the periods (in minutes) of
    the interval listeners it registered. *)
Record HomeAssistant : Type :=
  { written : list State;
    intervals : list N }.

Definition no_activity : HomeAssistant :=
  {| written := []; intervals := [] |}.

(* ===================================================================== *)
(** ** The entity *)
(* ===================================================================== *)

(** The instance attributes of [class Timeslot]. *)
Record Timeslot : Type :=
  { _config : ConfigType;
    editable : bool;
    _attr_name : option string;
    _attr_unique_id : string;
    entity_id : string;
    _enabled : bool;
    _start : time;
    _end : time;
    hass : HomeAssistant }.

(** [Timeslot.__init__(self, config)]. *)
Definition __init__ (config : ConfigType) : Timeslot :=
  {| _config := config;
     editable := true;
     _attr_name := conf_name config;
     _attr_unique_id := conf_id config;
     entity_id := DOMAIN ++ "." ++ conf_id config;
     _enabled := get_default (conf_enabled config) false;
     _start := get_default (conf_start config) Time.midnight;
     _end := get_default (conf_end config) Time.midnight;
     hass := no_activity |}.

(** Assignments to one attribute of [self]. *)
Definition set_attr_name (v : option string) (self : Timeslot) : Timeslot :=
  {| _config := _config self; editable := editable self;
     _attr_name := v;
     _attr_unique_id := _attr_unique_id self; entity_id := entity_id self;
     _enabled := _enabled self; _start := _start self; _end := _end self;
     hass := hass self |}.

Definition set_enabled (v : bool) (self : Timeslot) : Timeslot :=
  {| _config := _config self; editable := editable self;
     _attr_name := _attr_name self;
     _attr_unique_id := _attr_unique_id self; entity_id := entity_id self;
     _enabled := v;
     _start := _start self; _end := _end self; hass := hass self |}.

Definition set_start (v : time) (self : Timeslot) : Timeslot :=
  {| _config := _config self; editable := editable self;
     _attr_name := _attr_name self;
     _attr_unique_id := _attr_unique_id self; entity_id := entity_id self;
     _enabled := _enabled self;
     _start := v;
     _end := _end self; hass := hass self |}.

Definition set_end (v : time) (self : Timeslot) : Timeslot :=
  {| _config := _config self; editable := editable self;
     _attr_name := _attr_name self;
     _attr_unique_id := _attr_unique_id self; entity_id := entity_id self;
     _enabled := _enabled self; _start := _start self;
     _end := v;
     hass := hass self |}.

Definition set_hass (v : HomeAssistant) (self : Timeslot) : Timeslot :=
  {| _config := _config self; editable := editable self;
     _attr_name := _attr_name self;
     _attr_unique_id := _attr_unique_id self; entity_id := entity_id self;
     _enabled := _enabled self; _start := _start self; _end := _end self;
     hass := v |}.

(** [extra_state_attributes]. A [time] object is truthy, so the guard
    [if self._start] always takes the [isoformat()] side. *)
Definition extra_state_attributes (self : Timeslot) : Attributes :=
  {| attr_editable := Some (editable self);
     attr_enabled := Some (_enabled self);
     attr_start := Some (Iso.isoformat (_start self));
     attr_end := Some (Iso.isoformat (_end self)) |}.

(** [is_on], with [now = datetime.now().time()] as an argument.
    On booleans Python's [and] and [or] are [&&] and [||]. *)
Definition is_on (now : time) (self : Timeslot) : bool :=
  if (_start self <=? _end self)%time
  then _enabled self && (_start self <=? now)%time && (now <? _end self)%time
  else (* Night timeslot *)
    _enabled self && ((_start self <=? now)%time || (now <? _end self)%time).

(** [state]. *)
Definition state (now : time) (self : Timeslot) : string :=
  if is_on now self then STATE_ON else STATE_OFF.

(** [turn_on] and [turn_off]. *)
Definition turn_on (self : Timeslot) : Timeslot := set_enabled true self.

Definition turn_off (self : Timeslot) : Timeslot := set_enabled false self.

(** [async_toggle], the method that [async_setup] registers for
    [SERVICE_TOGGLE]. The class does not define it: it is the one
    inherited from the host's [ToggleEntity],
    [if self.is_on: turn_off() else: turn_on()]. *)
Definition async_toggle (now : time) (self : Timeslot) : Timeslot :=
  if is_on now self then turn_off self else turn_on self.

(** [async_write_ha_state]: the entity's state and attributes, as they
    are at [now], are written to the host. *)
Definition async_write_ha_state (now : time) (self : Timeslot) : Timeslot :=
  let published :=
    {| state_value := state now self;
       attributes := extra_state_attributes self |} in
  set_hass {| written := written (hass self) ++ [published];
              intervals := intervals (hass self) |} self.

(** An [if arg is not None: self.field = arg] statement. *)
Definition assign_if_given {A : Type} (arg : option A)
    (assign : A -> Timeslot -> Timeslot) (self : Timeslot) : Timeslot :=
  match arg with
  | Some v => assign v self
  | None => self
  end.

(** [async_set_parameters(name, enabled, start, end)]; an absent argument
    is [None]. *)
Definition async_set_parameters (name : option string) (enabled : option bool)
    (start end_ : option time) (now : time) (self : Timeslot) : Timeslot :=
  let self := assign_if_given name (fun v => set_attr_name (Some v)) self in
  let self := assign_if_given enabled set_enabled self in
  let self := assign_if_given start set_start self in
  let self := assign_if_given end_ set_end self in
  async_write_ha_state now self.

(** [_async_update], the callback of the one-minute tick. *)
Definition _async_update (now : time) (self : Timeslot) : Timeslot :=
  async_write_ha_state now self.

(* ===================================================================== *)
(** ** Methods that may raise *)
(* ===================================================================== *)

(** The two exceptions of the restore step: a failed [attributes[key]]
    and a text that [fromisoformat] rejects. *)
Inductive exn : Type :=
| KeyError (key : string)
| ValueError (text : string).

(** How a method body ends: it returns, it raises, or it goes on with a
    value that this model does not cover ([OutOfModel], with the text
    whose parse is the cause). Nothing is stated about the program after
    [OutOfModel]. *)
Inductive outcome (A : Type) : Type :=
| Return (a : A)
| Raise (e : exn)
| OutOfModel (text : string).

Arguments Return {A} a.
Arguments Raise {A} e.
Arguments OutOfModel {A} text.

(** A method body: from [self] to [self] as the body leaves it, and how
    the body ended. *)
Definition M (A : Type) : Type := Timeslot -> Timeslot * outcome A.

Definition ret {A : Type} (a : A) : M A := fun self => (self, Return a).

Definition raise {A : Type} (e : exn) : M A := fun self => (self, Raise e).

Definition leave {A : Type} (text : string) : M A :=
  fun self => (self, OutOfModel text).

Definition bind {A B : Type} (c : M A) (k : A -> M B) : M B :=
  fun self =>
    match c self with
    | (self', Return a) => k a self'
    | (self', Raise e) => (self', Raise e)
    | (self', OutOfModel text) => (self', OutOfModel text)
    end.

(** Reads an attribute of [self]. *)
Definition gets {A : Type} (f : Timeslot -> A) : M A :=
  fun self => (self, Return (f self)).

(** Assigns to [self]. *)
Definition modify (f : Timeslot -> Timeslot) : M unit :=
  fun self => (f self, Return tt).

Declare Scope method_scope.
Delimit Scope method_scope with method.
Notation "x <- c ;; k" := (bind c (fun x => k))
  (at level 61, c at next level, right associativity) : method_scope.
Notation "c ;; k" := (bind c (fun _ => k))
  (at level 61, right associativity) : method_scope.
Local Open Scope method_scope.

(** An [if test: body] statement. *)
Definition when (test : bool) (body : M unit) : M unit :=
  if test then body else ret tt.

(** [d[key]]: raises [KeyError] for an absent key. *)
Definition getitem {A : Type} (key : string) (v : option A) : M A :=
  match v with
  | Some x => ret x
  | None => raise (KeyError key)
  end.

(** [time_sys.fromisoformat(text)]: the time, for a text that every
    version reads as a naive time; [ValueError], for a text that every
    version rejects; for any other text, what Python does depends on its
    version or gives an offset-aware time, and the run leaves the
    model. *)
Definition time_fromisoformat (text : string) : M time :=
  match Iso.fromisoformat text with
  | Some t => ret t
  | None =>
      if Iso.malformed text then raise (ValueError text) else leave text
  end.

(** [async_track_time_interval(self.hass, self._async_update,
    timedelta(minutes=m))]. *)
Definition async_track_time_interval (m : N) : M unit :=
  modify (fun self =>
            set_hass {| written := written (hass self);
                        intervals := intervals (hass self) ++ [m] |} self).

(** The restore block of [async_added_to_hass]: the three guarded
    assignments under [if old_state is not None]. *)
Definition restore (old_state : option State) : M unit :=
  match old_state with
  | Some old =>
      c <- gets _config ;;
      when (is_None (conf_enabled c))
        (v <- getitem ATTR_ENABLED (attr_enabled (attributes old)) ;;
         modify (set_enabled v)) ;;
      c <- gets _config ;;
      when (is_None (conf_start c))
        (text <- getitem ATTR_START (attr_start (attributes old)) ;;
         v <- time_fromisoformat text ;;
         modify (set_start v)) ;;
      c <- gets _config ;;
      when (is_None (conf_end c))
        (text <- getitem ATTR_END (attr_end (attributes old)) ;;
         v <- time_fromisoformat text ;;
         modify (set_end v))
  | None => ret tt
  end.

(** [async_added_to_hass], with [old_state] the result of
    [self.async_get_last_state()]. The inherited
    [super().async_added_to_hass()] touches no attribute modelled here. *)
Definition async_added_to_hass (old_state : option State) : M unit :=
  restore old_state ;;
  (* Update state every minute *)
  async_track_time_interval 1.

(** A [time] from hour, minute and second. *)
Definition hms (h m s : N) : time := Time.mk h m s 0.

(** Two entities used in the examples: a day window 08:00 to 17:00 and a
    night window 22:00 to 06:00, both enabled by their configuration. *)
Definition day_window : Timeslot :=
  __init__ {| conf_id := "office"; conf_name := Some "Office hours";
          conf_enabled := Some true;
          conf_start := Some (hms 8 0 0); conf_end := Some (hms 17 0 0) |}.

Definition night_window : Timeslot :=
  __init__ {| conf_id := "night"; conf_name := None;
          conf_enabled := Some true;
          conf_start := Some (hms 22 0 0); conf_end := Some (hms 6 0 0) |}.

(** Configurations and snapshots used in the examples. [bare] specifies
    nothing but the id; [enabled_only] specifies [enabled] and leaves the
    times to the snapshot. *)
Definition bare : ConfigType :=
  {| conf_id := "night"; conf_name := None; conf_enabled := None;
     conf_start := None; conf_end := None |}.

Definition enabled_only : ConfigType :=
  {| conf_id := "night"; conf_name := None; conf_enabled := Some true;
     conf_start := None; conf_end := None |}.

Definition snapshot (enabled : option bool) (start end_ : option string)
  : State :=
  {| state_value := STATE_OFF;
     attributes := {| attr_editable := Some true;
                      attr_enabled := enabled;
                      attr_start := start;
                      attr_end := end_ |} |}.

(** What a call leaves alone: every attribute but [_enabled]. *)
Definition same_but_enabled (self self' : Timeslot) : Prop :=
  _attr_name self' = _attr_name self
  /\ _start self' = _start self
  /\ _end self' = _end self
  /\ _attr_unique_id self' = _attr_unique_id self
  /\ entity_id self' = entity_id self
  /\ editable self' = editable self
  /\ _config self' = _config self
  /\ hass self' = hass self.

(* ===================================================================== *)
(** ** Setup, and the calls the host makes *)
(* ===================================================================== *)

(** The value under one id of the [timeslot:] configuration, as
    [ATTR_SCHEMA] validates it: four optional keys. *)
Record Conf : Type :=
  { body_name : option string;
    body_enabled : option bool;
    body_start : option time;
    body_end : option time }.

(** [{CONF_ID: id_, **(conf or {})}]: an id with no body ([None], which
    the schema allows) gives the dict with the id alone. *)
Definition entity_config (id_ : string) (conf : option Conf) : ConfigType :=
  match conf with
  | Some body =>
      {| conf_id := id_;
         conf_name := body_name body;
         conf_enabled := body_enabled body;
         conf_start := body_start body;
         conf_end := body_end body |}
  | None =>
      {| conf_id := id_; conf_name := None; conf_enabled := None;
         conf_start := None; conf_end := None |}
  end.

(** The entities that [async_setup] builds: one [Timeslot] for each item
    of [config.get(DOMAIN, {})], in the order of the dict. The dict is
    the list of its items; [None] is a configuration without the
    domain. *)
Definition async_setup (domain : option (list (string * option Conf)))
  : list Timeslot :=
  List.map (fun item => __init__ (entity_config (fst item) (snd item)))
    (get_default domain []).

(** A call that the host makes on an entity once it is set up: one of
    the four services that [async_setup] registers, with the method each
    one names, or the tick that [async_added_to_hass] registers. The
    calls that read the clock carry [now]. *)
Inductive call : Type :=
| TurnOn
| TurnOff
| Toggle (now : time)
| SetParameters (name : option string) (enabled : option bool)
    (start end_ : option time) (now : time)
| Update (now : time).

Definition perform (c : call) (self : Timeslot) : Timeslot :=
  match c with
  | TurnOn => turn_on self
  | TurnOff => turn_off self
  | Toggle now => async_toggle now self
  | SetParameters name enabled start end_ now =>
      async_set_parameters name enabled start end_ now self
  | Update now => _async_update now self
  end.

Definition perform_all (calls : list call) (self : Timeslot) : Timeslot :=
  List.fold_left (fun self c => perform c self) calls self.

(** The calls that end in [async_write_ha_state]. *)
Definition publishes (c : call) : bool :=
  match c with
  | SetParameters _ _ _ _ _ | Update _ => true
  | TurnOn | TurnOff | Toggle _ => false
  end.

(** The times that a call carries are times that [cv.time] can produce:
    their fields are in range. *)
Definition valid_if_given (v : option time) : bool :=
  match v with
  | Some t => Time.valid t
  | None => true
  end.

Definition valid_call (c : call) : bool :=
  match c with
  | SetParameters _ _ start end_ _ => valid_if_given start && valid_if_given end_
  | _ => true
  end.

(** The state that the entity would write at [now]. *)
Definition current_state (now : time) (self : Timeslot) : State :=
  {| state_value := state now self;
     attributes := extra_state_attributes self |}.

(** Python's [a if a is not None else b], on optional arguments. *)
Definition or_else {A : Type} (a b : option A) : option A :=
  match a with
  | Some _ => a
  | None => b
  end.

(** The attributes that are fixed when the entity is constructed. *)
Definition same_identity (self self' : Timeslot) : Prop :=
  _config self' = _config self
  /\ _attr_unique_id self' = _attr_unique_id self
  /\ entity_id self' = entity_id self
  /\ editable self' = editable self.

(** A snapshot that the restore step can read whatever the configuration
    omits: the three attributes are there and the two texts parse. *)
Definition restorable (old : State) : Prop :=
  (exists v, attr_enabled (attributes old) = Some v)
  /\ (exists text t, attr_start (attributes old) = Some text
                     /\ Iso.fromisoformat text = Some t)
  /\ (exists text t, attr_end (attributes old) = Some text
                     /\ Iso.fromisoformat text = Some t).

(** A configuration for the examples: enabled, with a start and no end. *)
Definition start_only : ConfigType :=
  {| conf_id := "evening"; conf_name := None; conf_enabled := Some true;
     conf_start := Some (hms 18 0 0); conf_end := None |}.

(* ===================================================================== *)
(** ** Facts on the order of times *)
(* ===================================================================== *)

Section TimeOrder.

Local Open Scope time_scope.

Lemma lex_opp (c k : comparison) :
  CompOpp (Time.lex c k) = Time.lex (CompOpp c) (CompOpp k).
Proof. destruct c; reflexivity. Qed.

Lemma cmp_antisym (a b : time) : Time.cmp b a = CompOpp (Time.cmp a b).
Proof.
  unfold Time.cmp. rewrite !lex_opp, <- !N.compare_antisym. reflexivity.
Qed.

Lemma cmp_refl (a : time) : Time.cmp a a = Eq.
Proof. unfold Time.cmp. rewrite !N.compare_refl. reflexivity. Qed.

Lemma leb_le (a b : time) : (a <=? b) = true <-> a <= b.
Proof.
  unfold Time.leb, Time.le. destruct (Time.cmp a b); split; congruence.
Qed.

Lemma ltb_lt (a b : time) : (a <? b) = true <-> a < b.
Proof.
  unfold Time.ltb, Time.lt. destruct (Time.cmp a b); split; congruence.
Qed.

Lemma leb_refl (a : time) : (a <=? a) = true.
Proof. unfold Time.leb. rewrite cmp_refl. reflexivity. Qed.

(** [a <= b] and [b < a] exclude each other. *)
Lemma ltb_negb_leb (a b : time) : (b <? a) = negb (a <=? b).
Proof.
  unfold Time.ltb, Time.leb. rewrite (cmp_antisym a b).
  destruct (Time.cmp a b); reflexivity.
Qed.

Lemma le_not_lt (a b : time) : a <= b <-> ~ b < a.
Proof.
  rewrite <- leb_le, <- ltb_lt, ltb_negb_leb.
  destruct (a <=? b); simpl; split; congruence.
Qed.

End TimeOrder.

(* ===================================================================== *)
(** ** The text form round trip *)
(* ===================================================================== *)

Section TextForm.

Import Iso.

Lemma append_assoc (a b c : string) : ((a ++ b) ++ c = a ++ (b ++ c))%string.
Proof. induction a as [| x a IH]; simpl; [ | rewrite IH]; reflexivity. Qed.

Lemma append_empty (a : string) : (a ++ "" = a)%string.
Proof. induction a as [| x a IH]; simpl; [ | rewrite IH]; reflexivity. Qed.

Lemma length_append (a b : string) :
  String.length (a ++ b) = (String.length a + String.length b)%nat.
Proof. induction a as [| x a IH]; simpl; [ | rewrite IH]; reflexivity. Qed.

Lemma length_padded (k : nat) : forall n, String.length (padded k n) = k.
Proof.
  induction k as [| k IH]; intros n; simpl; [reflexivity | ].
  rewrite length_append, IH. simpl. lia.
Qed.

(** A printed digit reads back as the last decimal digit. *)
Lemma digit_val_digit (n : N) : digit_val (digit n) = Some (n mod 10).
Proof.
  unfold digit_val, digit.
  assert (H : n mod 10 < 10) by (apply N.mod_lt; discriminate).
  generalize dependent (n mod 10). intros d H.
  rewrite N_ascii_embedding by lia.
  replace (48 <=? 48 + d) with true by (symmetry; apply N.leb_le; lia).
  replace (48 + d <=? 57) with true by (symmetry; apply N.leb_le; lia).
  cbn [andb]. f_equal. lia.
Qed.

Lemma parse_digits_cons (k : nat) (c : ascii) (s : string) (acc : N) :
  parse_digits (S k) (String c s) acc
  = match digit_val c with
    | Some d => parse_digits k s (10 * acc + d)
    | None => None
    end.
Proof. reflexivity. Qed.

(** Reading [k + 1] digits is reading [k] digits and then one. *)
Lemma parse_digits_last (k : nat) : forall s acc,
  parse_digits (S k) s acc
  = match parse_digits k s acc with
    | Some (a, String c rest) =>
        match digit_val c with
        | Some d => Some (10 * a + d, rest)
        | None => None
        end
    | _ => None
    end.
Proof.
  induction k as [| k IH]; intros s acc.
  - simpl. destruct s as [| c s]; [reflexivity | ].
    destruct (digit_val c); reflexivity.
  - destruct s as [| c s]; [reflexivity | ].
    rewrite (parse_digits_cons (S k)), (parse_digits_cons k).
    destruct (digit_val c) as [d |]; [apply IH | reflexivity].
Qed.

(** [k] padded digits read back as the number they print. *)
Lemma parse_padded (k : nat) : forall n rest acc,
  n < 10 ^ N.of_nat k ->
  parse_digits k (padded k n ++ rest) acc
  = Some (acc * 10 ^ N.of_nat k + n, rest).
Proof.
  induction k as [| k IH]; intros n rest acc Hn.
  - simpl in *. f_equal. f_equal. lia.
  - rewrite parse_digits_last. simpl padded. rewrite append_assoc.
    change (String (digit n) "" ++ rest)%string
      with (String (digit n) rest).
    rewrite Nat2N.inj_succ, N.pow_succ_r' in *.
    assert (Hq : n / 10 < 10 ^ N.of_nat k)
      by (apply N.Div0.div_lt_upper_bound; lia).
    rewrite (IH (n / 10) _ acc Hq). cbv beta iota.
    rewrite digit_val_digit. f_equal. f_equal.
    pose proof (N.div_mod n 10 ltac:(discriminate)) as Hdm.
    generalize dependent (n mod 10). generalize dependent (n / 10).
    intros. lia.
Qed.

Lemma parse_two (n : N) (rest : string) :
  n < 100 -> parse_digits 2 (padded 2 n ++ rest) 0 = Some (n, rest).
Proof. intros H. rewrite (parse_padded 2) by exact H. reflexivity. Qed.

Lemma parse_fraction_padded (n : N) :
  n < 1000000 -> parse_fraction (padded 6 n) = Some n.
Proof.
  intros H. unfold parse_fraction. rewrite length_padded.
  rewrite <- (append_empty (padded 6 n)).
  rewrite (parse_padded 6) by exact H. reflexivity.
Qed.

(** What [isoformat] prints, [fromisoformat] reads back. *)
Theorem fromisoformat_isoformat (t : time) :
  Time.valid t = true -> fromisoformat (isoformat t) = Some t.
Proof.
  intros Hv. unfold fromisoformat, parse_hh_mm_ss_ff, isoformat.
  pose proof Hv as Hv'. unfold Time.valid in Hv'.
  rewrite !andb_true_iff, !N.ltb_lt in Hv'.
  destruct Hv' as [[[Hh Hm] Hs] Hu].
  destruct t as [h m s us].
  cbn [Time.hour Time.minute Time.second Time.microsecond] in *.
  rewrite parse_two by lia. cbn [append].
  rewrite parse_two by lia. unfold parse_after_mm. cbn [append].
  rewrite parse_two by lia. unfold parse_after_ss.
  destruct (N.eqb_spec us 0) as [-> | Hne].
  - cbn [append]. rewrite Hv. reflexivity.
  - cbn [append]. rewrite parse_fraction_padded by exact Hu.
    rewrite Hv. reflexivity.
Qed.

(** The hour of a parsed time is the number that its first two digits
    print. *)
Lemma parsed_hour (text : string) (t : time) :
  parse_hh_mm_ss_ff text = Some t ->
  exists rest, parse_digits 2 text 0 = Some (Time.hour t, rest).
Proof.
  unfold parse_hh_mm_ss_ff, parse_after_mm, parse_after_ss.
  destruct (parse_digits 2 text 0) as [[h rest] |]; [ | discriminate].
  intros H. exists rest. f_equal. f_equal.
  repeat match type of H with
         | match ?x with _ => _ end = Some _ =>
             destruct x; try discriminate H
         | (let (_, _) := ?x in _) = Some _ =>
             destruct x; try discriminate H
         end;
    injection H as <-; reflexivity.
Qed.

Lemma digit_val_T : digit_val "T" = None.
Proof. reflexivity. Qed.

(** The two sides of the parser exclude each other: a malformed text is
    not read as a time. *)
Lemma malformed_rejected (text : string) :
  malformed text = true -> fromisoformat text = None.
Proof.
  intros Hm. unfold fromisoformat.
  destruct (parse_hh_mm_ss_ff text) as [t |] eqn:E; [ | reflexivity].
  destruct (@parsed_hour text t E) as [rest Hd].
  destruct (Time.valid t) eqn:Hv; [exfalso | reflexivity].
  unfold Time.valid in Hv. rewrite !andb_true_iff, !N.ltb_lt in Hv.
  destruct Hv as [[[Hh _] _] _].
  destruct text as [| c1 [| c2 more]].
  - discriminate Hd.
  - rewrite parse_digits_cons in Hd.
    destruct (digit_val c1); discriminate Hd.
  - rewrite parse_digits_cons in Hd.
    destruct (digit_val c1) as [d1 |] eqn:E1; [ | discriminate Hd].
    rewrite parse_digits_cons in Hd.
    destruct (digit_val c2) as [d2 |] eqn:E2; [ | discriminate Hd].
    change (Some (10 * (10 * 0 + d1) + d2, more) = Some (Time.hour t, rest))
      in Hd.
    assert (Hhour : 10 * (10 * 0 + d1) + d2 = Time.hour t) by congruence.
    unfold malformed, drop_T in Hm.
    destruct (Ascii.eqb_spec c1 "T") as [-> | _];
      [rewrite digit_val_T in E1; discriminate E1 | ].
    rewrite E1, E2 in Hm. apply N.leb_le in Hm. lia.
Qed.

End TextForm.

(* ===================================================================== *)
(** ** The membership test *)
(* ===================================================================== *)

Section Membership.

Local Open Scope time_scope.

Variable now : time.
Variable self : Timeslot.

Lemma is_on_day :
  _start self <= _end self ->
  is_on now self
  = _enabled self && (_start self <=? now) && (now <? _end self).
Proof.
  intros H. apply leb_le in H. unfold is_on. rewrite H. reflexivity.
Qed.

Lemma is_on_night :
  _start self > _end self ->
  is_on now self
  = _enabled self && ((_start self <=? now) || (now <? _end self)).
Proof.
  intros H. apply ltb_lt in H. rewrite ltb_negb_leb in H.
  apply negb_true_iff in H. unfold is_on. rewrite H. reflexivity.
Qed.

Lemma is_on_disabled : _enabled self = false -> is_on now self = false.
Proof.
  intros H. unfold is_on. rewrite H.
  destruct (_start self <=? _end self); reflexivity.
Qed.

End Membership.

(** C1. [is_on] is the reference membership test: it is false whenever
    [enabled] is false; for [start <= end] it is true exactly when
    [enabled] holds and [start <= now < end]; for [start > end] it is
    true exactly when [enabled] holds and [now >= start] or [now < end].
    This holds for every start, end and now. *)
Theorem is_on_reference (now : time) (self : Timeslot) :
  (_enabled self = false -> is_on now self = false)
  /\ ((_start self <= _end self)%time ->
      (is_on now self = true
       <-> _enabled self = true
           /\ (_start self <= now)%time /\ (now < _end self)%time))
  /\ ((_start self > _end self)%time ->
      (is_on now self = true
       <-> _enabled self = true
           /\ ((now >= _start self)%time \/ (now < _end self)%time))).
Proof.
  split; [apply is_on_disabled | split]; intros H.
  - rewrite (is_on_day now self H), !andb_true_iff, leb_le, ltb_lt. tauto.
  - rewrite (is_on_night now self H), andb_true_iff, orb_true_iff,
      leb_le, ltb_lt. tauto.
Qed.

(** The scenarios of the specification, through the three clauses. *)
Lemma is_on_reference_witness :
  is_on (hms 12 0 0) (turn_off day_window) = false
  /\ is_on (hms 8 0 0) day_window = true
  /\ is_on (hms 23 30 0) night_window = true.
Proof.
  split; [| split].
  - apply (proj1 (is_on_reference (hms 12 0 0) (turn_off day_window))).
    reflexivity.
  - apply (proj1 (proj2 (is_on_reference (hms 8 0 0) day_window))).
    + discriminate.
    + split; [reflexivity | split; [discriminate | reflexivity]].
  - apply (proj2 (proj2 (is_on_reference (hms 23 30 0) night_window))).
    + reflexivity.
    + split; [reflexivity | left; discriminate].
Defined.

(** C2. A window with [start = end = t] and [enabled = true] is never on,
    whatever [t] and [now] are. *)
Theorem equal_bounds_never_on (t now : time) (self : Timeslot) :
  _start self = t -> _end self = t -> _enabled self = true ->
  is_on now self = false.
Proof.
  intros Hs He _. unfold is_on. rewrite Hs, He, leb_refl, ltb_negb_leb.
  destruct (t <=? now)%time; rewrite ?andb_false_r; reflexivity.
Qed.

Lemma equal_bounds_never_on_witness :
  is_on (hms 9 30 0)
    (__init__ {| conf_id := "noon"; conf_name := None; conf_enabled := Some true;
             conf_start := Some (hms 12 0 0);
             conf_end := Some (hms 12 0 0) |}) = false.
Proof.
  apply (equal_bounds_never_on (t := hms 12 0 0)); reflexivity.
Defined.

(* ===================================================================== *)
(** ** The mutators *)
(* ===================================================================== *)

Lemma set_enabled_frame (v : bool) (self : Timeslot) :
  same_but_enabled self (set_enabled v self).
Proof. repeat split. Qed.

Lemma set_enabled_twice (v w : bool) (self : Timeslot) :
  set_enabled v (set_enabled w self) = set_enabled v self.
Proof. reflexivity. Qed.

(** C8. [turn_on] and [turn_off] set [enabled] to true and to false, and
    change nothing else: name, start, end, id and editable (and the
    configuration and the host) are as before, for every entity. *)
Theorem turn_on_off_frame (self : Timeslot) :
  _enabled (turn_on self) = true
  /\ _enabled (turn_off self) = false
  /\ same_but_enabled self (turn_on self)
  /\ same_but_enabled self (turn_off self).
Proof.
  split; [reflexivity | split; [reflexivity | ]].
  split; apply set_enabled_frame.
Qed.

(** C10. [turn_on] and [turn_off] are idempotent, and each one fixes
    [enabled] whatever it was before. *)
Theorem turn_on_off_idempotent (self : Timeslot) :
  turn_on (turn_on self) = turn_on self
  /\ turn_off (turn_off self) = turn_off self
  /\ _enabled (turn_on self) = true
  /\ _enabled (turn_off self) = false.
Proof.
  unfold turn_on, turn_off. rewrite !set_enabled_twice. repeat split.
Qed.

(** [async_toggle] writes the negation of [is_on], not of [enabled]. *)
Lemma toggle_enabled (now : time) (self : Timeslot) :
  _enabled (async_toggle now self) = negb (is_on now self).
Proof. unfold async_toggle. destruct (is_on now self); reflexivity. Qed.

Lemma toggle_frame (now : time) (self : Timeslot) :
  same_but_enabled self (async_toggle now self).
Proof.
  unfold async_toggle. destruct (is_on now self); apply set_enabled_frame.
Qed.

(** C4, as the claim states it, fails: the day window 08:00 to 17:00 is
    enabled, at 20:00 it is off, and a toggle calls [turn_on]: [enabled]
    stays true. And a disabled window toggled twice outside its hours ends
    enabled. *)
Lemma toggle_counterexample :
  _enabled (async_toggle (hms 20 0 0) day_window)
  <> negb (_enabled day_window)
  /\ _enabled (async_toggle (hms 20 0 0)
                 (async_toggle (hms 20 0 0) (turn_off day_window)))
     <> _enabled (turn_off day_window).
Proof. split; discriminate. Qed.

(** C4, amended. A toggle sets [enabled] to the negation of the
    entity's state [is_on] at the time of the call. This is the negation
    of [enabled] when [enabled] is false or the entity is on; an enabled
    entity outside its window stays enabled. After a toggle of an entity
    that is on, a second toggle (at any time) gives [enabled] its
    original value back. Nothing but [enabled] changes. *)
Theorem toggle_negates_is_on (now : time) (self : Timeslot) :
  _enabled (async_toggle now self) = negb (is_on now self)
  /\ (_enabled self = false \/ is_on now self = true ->
      _enabled (async_toggle now self) = negb (_enabled self))
  /\ (_enabled self = true -> is_on now self = false ->
      _enabled (async_toggle now self) = true)
  /\ (is_on now self = true ->
      forall now' : time,
        _enabled (async_toggle now' (async_toggle now self)) = _enabled self)
  /\ same_but_enabled self (async_toggle now self).
Proof.
  split; [apply toggle_enabled | ].
  split; [ | split; [ | split; [ | apply toggle_frame]]].
  - rewrite toggle_enabled. intros [H | H].
    + rewrite H, (is_on_disabled now self H). reflexivity.
    + rewrite H. destruct (_enabled self) eqn:E; [reflexivity | ].
      rewrite (is_on_disabled now self E) in H. discriminate.
  - intros _ H. rewrite toggle_enabled, H. reflexivity.
  - intros H now'. rewrite toggle_enabled.
    assert (E : _enabled (async_toggle now self) = false)
      by (rewrite toggle_enabled, H; reflexivity).
    rewrite (is_on_disabled now' _ E).
    destruct (_enabled self) eqn:E'; [reflexivity | ].
    rewrite (is_on_disabled now self E') in H. discriminate.
Qed.

Lemma toggle_negates_is_on_witness :
  _enabled (async_toggle (hms 9 0 0) day_window) = false
  /\ _enabled (async_toggle (hms 20 0 0) day_window) = true
  /\ _enabled (async_toggle (hms 20 0 0)
                 (async_toggle (hms 9 0 0) day_window)) = true.
Proof.
  split; [ | split].
  - apply (proj1 (proj2 (toggle_negates_is_on (hms 9 0 0) day_window))).
    right. reflexivity.
  - apply (proj1 (proj2 (proj2
             (toggle_negates_is_on (hms 20 0 0) day_window))));
      reflexivity.
  - apply (proj1 (proj2 (proj2 (proj2
             (toggle_negates_is_on (hms 9 0 0) day_window))))).
    reflexivity.
Defined.

(** C6. [async_set_parameters] overwrites exactly the attributes whose
    argument is given and leaves the others as they were; it always
    writes one state to the host, the state and attributes of the entity
    as the call leaves it. With no argument at all it is that one write
    and nothing else; with arguments equal to the current values the
    attributes keep them and the write still happens. *)
Theorem set_parameters_overwrites_given (name : option string)
    (enabled : option bool) (start end_ : option time)
    (now : time) (self : Timeslot) :
  let self' := async_set_parameters name enabled start end_ now self in
  (forall v, name = Some v -> _attr_name self' = Some v)
  /\ (name = None -> _attr_name self' = _attr_name self)
  /\ (forall v, enabled = Some v -> _enabled self' = v)
  /\ (enabled = None -> _enabled self' = _enabled self)
  /\ (forall v, start = Some v -> _start self' = v)
  /\ (start = None -> _start self' = _start self)
  /\ (forall v, end_ = Some v -> _end self' = v)
  /\ (end_ = None -> _end self' = _end self)
  /\ _config self' = _config self
  /\ editable self' = editable self
  /\ _attr_unique_id self' = _attr_unique_id self
  /\ entity_id self' = entity_id self
  /\ intervals (hass self') = intervals (hass self)
  /\ written (hass self')
     = (written (hass self)
        ++ [{| state_value := state now self';
               attributes := extra_state_attributes self' |}])%list
  /\ async_set_parameters None None None None now self
     = async_write_ha_state now self.
Proof.
  unfold async_set_parameters.
  destruct name, enabled, start, end_; simpl;
    repeat split; intros; congruence.
Qed.

(** The scenario of the specification: [set_parameters(enabled=true)] on
    the disabled day window keeps 08:00 and 17:00 and writes one state;
    and a call with no argument. *)
Lemma set_parameters_overwrites_given_witness :
  let self := turn_off day_window in
  let self' :=
    async_set_parameters None (Some true) None None (hms 9 0 0) self in
  _enabled self' = true
  /\ _start self' = hms 8 0 0
  /\ _end self' = hms 17 0 0
  /\ _attr_name self' = Some "Office hours"
  /\ List.length (written (hass self'))
     = S (List.length (written (hass self))).
Proof.
  intros self self'.
  pose proof (set_parameters_overwrites_given
                None (Some true) None None (hms 9 0 0) self) as H.
  cbv zeta in H. fold self' in H.
  destruct H as (_ & Hn & He & _ & _ & Hs & _ & Hd & _ & _ & _ & _ & _ & Hw & _).
  split; [apply (He true); reflexivity | ].
  split; [rewrite (Hs eq_refl); reflexivity | ].
  split; [rewrite (Hd eq_refl); reflexivity | ].
  split; [rewrite (Hn eq_refl); reflexivity | ].
  rewrite Hw, length_app. reflexivity.
Defined.

(* ===================================================================== *)
(** ** Restore on start *)
(* ===================================================================== *)

(** Runs the restore step on symbolic data: one case for each way the
    snapshot can hold or lack an attribute, the configuration can specify
    or omit a field, and a time text can parse. *)
Ltac split_parses :=
  cbv -[Iso.fromisoformat Iso.malformed app];
  repeat match goal with
         | |- context [match Iso.fromisoformat ?text with _ => _ end] =>
             destruct (Iso.fromisoformat text) eqn:?;
             cbv -[Iso.fromisoformat Iso.malformed app]
         | |- context [if Iso.malformed ?text then _ else _] =>
             destruct (Iso.malformed text) eqn:?;
             cbv -[Iso.fromisoformat Iso.malformed app]
         end.

Ltac run_state old :=
  destruct old as [? [? [?|] [?|] [?|]]]; split_parses.

Ltac run_snapshot old_state :=
  let old := fresh "old" in
  destruct old_state as [old|]; [run_state old | split_parses].

Ltac destruct_entity self :=
  destruct self as [[? ? [?|] [?|] [?|]] ? ? ? ? ? ? ? ?].

Ltac run_restore self old_state :=
  destruct_entity self; run_snapshot old_state.

(** Clean-up of the cases: hypotheses that cannot hold, equations
    between values that were found. *)
Ltac tidy :=
  repeat match goal with
         | |- _ /\ _ => split
         | |- forall _, _ => intro
         | H : _ /\ _ |- _ => destruct H
         | H : _ \/ _ |- _ => destruct H
         | H : exists _, _ |- _ => destruct H
         | H : Some _ = Some _ |- _ => injection H as H; subst
         | H : Some _ = None |- _ => discriminate H
         | H : None = Some _ |- _ => discriminate H
         | H : Return _ = Raise _ |- _ => discriminate H
         | H : Raise _ = Return _ |- _ => discriminate H
         | H : OutOfModel _ = Return _ |- _ => discriminate H
         | H : OutOfModel _ = Raise _ |- _ => discriminate H
         | Hm : Iso.malformed ?text = true,
           Hp : Iso.fromisoformat ?text = Some _ |- _ =>
             rewrite (@malformed_rejected text Hm) in Hp; discriminate Hp
         | H : ?x <> ?x |- _ => destruct (H eq_refl)
         end.

(** C7. Restoring twice from the same snapshot, under the same
    configuration, leaves the same [enabled], [start] and [end] as
    restoring once (and ends the same way), for every configuration and
    snapshot. *)
Theorem restore_idempotent (old_state : option State) (self : Timeslot) :
  let once := async_added_to_hass old_state self in
  let twice := async_added_to_hass old_state (fst once) in
  _enabled (fst twice) = _enabled (fst once)
  /\ _start (fst twice) = _start (fst once)
  /\ _end (fst twice) = _end (fst once)
  /\ snd twice = snd once.
Proof.
  run_restore self old_state; repeat split; congruence.
Qed.










(** X10. Restoring from what an entity published gives its fields back: the
    snapshot written by [prev] restores, into an entity whose
    configuration leaves a field out, the value that [prev] had. *)
Theorem restore_published_state (config : ConfigType) (now : time)
    (prev : Timeslot) :
  Time.valid (_start prev) = true ->
  Time.valid (_end prev) = true ->
  let old := {| state_value := state now prev;
                attributes := extra_state_attributes prev |} in
  let run := async_added_to_hass (Some old) (__init__ config) in
  snd run = Return tt
  /\ (conf_enabled config = None -> _enabled (fst run) = _enabled prev)
  /\ (conf_start config = None -> _start (fst run) = _start prev)
  /\ (conf_end config = None -> _end (fst run) = _end prev).
Proof.
  intros Hs He.
  destruct prev as [? ? ? ? ? en st e ?]. simpl in Hs, He.
  destruct config as [? ? [?|] [?|] [?|]];
    cbv -[Iso.fromisoformat Iso.malformed Iso.isoformat app];
    rewrite ?(fromisoformat_isoformat st Hs),
            ?(fromisoformat_isoformat e He);
    tidy; reflexivity.
Qed.

(** When [async_added_to_hass] returns it has registered the one-minute
    tick, once per call. *)
Lemma added_to_hass_registers_tick (old_state : option State)
    (self : Timeslot) :
  snd (async_added_to_hass old_state self) = Return tt ->
  intervals (hass (fst (async_added_to_hass old_state self)))
  = (intervals (hass self) ++ [1])%list.
Proof.
  run_restore self old_state; tidy; reflexivity.
Qed.

(* ===================================================================== *)
(** ** More on the order of times *)
(* ===================================================================== *)

Unset Implicit Arguments.

Section TimeOrderMore.

Local Open Scope time_scope.

(** Splits every comparison of two fields in the goal. *)
Ltac split_compares :=
  repeat match goal with
         | |- context [N.compare ?x ?y] =>
             destruct (N.compare_spec x y); subst; cbn [Time.lex]
         end.

(** Times that compare equal are the same time. *)
Lemma cmp_eq (a b : time) : Time.cmp a b = Eq <-> a = b.
Proof.
  split; [ | intros ->; apply cmp_refl].
  destruct a as [h m s u], b as [h' m' s' u']. unfold Time.cmp.
  cbn [Time.hour Time.minute Time.second Time.microsecond].
  split_compares; intros Hc; first [discriminate Hc | reflexivity].
Qed.

Lemma cmp_trans (a b c : time) :
  Time.cmp a b <> Gt -> Time.cmp b c <> Gt ->
  Time.cmp a c <> Gt
  /\ (Time.cmp a b = Lt \/ Time.cmp b c = Lt -> Time.cmp a c = Lt).
Proof.
  destruct a as [h m s u], b as [h' m' s' u'], c as [h'' m'' s'' u''].
  unfold Time.cmp.
  cbn [Time.hour Time.minute Time.second Time.microsecond].
  split_compares; intros Hab Hbc;
    first [ exfalso; apply Hab; reflexivity
          | exfalso; apply Hbc; reflexivity
          | exfalso; lia
          | split; [discriminate | intros [Hc | Hc];
                                   first [reflexivity | discriminate Hc]] ].
Qed.

Lemma leb_antisym (a b : time) :
  (a <=? b) = true -> (b <=? a) = true -> a = b.
Proof.
  unfold Time.leb. rewrite (cmp_antisym a b). intros H1 H2.
  apply cmp_eq. destruct (Time.cmp a b); simpl in *; congruence.
Qed.

Lemma leb_total (a b : time) : (a <=? b) = false -> (b <=? a) = true.
Proof.
  unfold Time.leb. rewrite (cmp_antisym a b).
  destruct (Time.cmp a b); simpl; congruence.
Qed.

Lemma ltb_irrefl (a : time) : (a <? a) = false.
Proof. unfold Time.ltb. rewrite cmp_refl. reflexivity. Qed.

Lemma leb_ltb (a b : time) :
  (a <=? b) = true -> a <> b -> (a <? b) = true.
Proof.
  unfold Time.leb, Time.ltb. intros H Hne.
  destruct (Time.cmp a b) eqn:E; try congruence.
  apply cmp_eq in E. contradiction.
Qed.

Lemma leb_trans (a b c : time) :
  (a <=? b) = true -> (b <=? c) = true -> (a <=? c) = true.
Proof.
  rewrite !leb_le. intros H1 H2. apply (cmp_trans a b c H1 H2).
Qed.

Lemma ltb_leb_trans (a b c : time) :
  (a <? b) = true -> (b <=? c) = true -> (a <? c) = true.
Proof.
  rewrite !ltb_lt, leb_le. intros H1 H2.
  apply (cmp_trans a b c); [unfold Time.lt in H1; congruence | exact H2 | ].
  left. exact H1.
Qed.

Lemma leb_ltb_trans (a b c : time) :
  (a <=? b) = true -> (b <? c) = true -> (a <? c) = true.
Proof.
  rewrite !ltb_lt, leb_le. intros H1 H2.
  apply (cmp_trans a b c); [exact H1 | unfold Time.lt in H2; congruence | ].
  right. exact H2.
Qed.

End TimeOrderMore.

(* ===================================================================== *)
(** ** The shape of the window *)
(* ===================================================================== *)

Section Window.

Local Open Scope time_scope.

(** [is_on] reads the three fields of the window and nothing else. *)
Lemma is_on_ext (now : time) (self self' : Timeslot) :
  _enabled self' = _enabled self ->
  _start self' = _start self ->
  _end self' = _end self ->
  is_on now self' = is_on now self.
Proof. unfold is_on. intros -> -> ->. reflexivity. Qed.

Lemma is_on_empty (now : time) (self : Timeslot) :
  _start self = _end self -> is_on now self = false.
Proof.
  intros H. unfold is_on. rewrite H, leb_refl, ltb_negb_leb.
  destruct (_enabled self), (_end self <=? now); reflexivity.
Qed.

Lemma is_on_at_end (self : Timeslot) : is_on (_end self) self = false.
Proof.
  unfold is_on. rewrite ltb_irrefl.
  destruct (_start self <=? _end self), (_enabled self); reflexivity.
Qed.

Lemma is_on_at_start (self : Timeslot) :
  _enabled self = true -> _start self <> _end self ->
  is_on (_start self) self = true.
Proof.
  intros He Hne. unfold is_on. rewrite He, leb_refl.
  destruct (_start self <=? _end self) eqn:E; [ | reflexivity].
  rewrite (leb_ltb _ _ E Hne). reflexivity.
Qed.

(** The window that [async_set_parameters] leaves when both bounds are
    given. *)
Lemma is_on_set_bounds (name : option string) (a b now' now : time)
    (self : Timeslot) :
  is_on now (async_set_parameters name None (Some a) (Some b) now' self)
  = if a <=? b
    then _enabled self && (a <=? now) && (now <? b)
    else _enabled self && ((a <=? now) || (now <? b)).
Proof. destruct name; reflexivity. Qed.

End Window.

(** X1. The end of the window is exclusive and its start inclusive, for
    a day window and for a night window alike: no entity is on at its
    own [end], and an enabled entity whose bounds differ is on at its
    [start]. *)
Theorem window_bounds (self : Timeslot) :
  is_on (_end self) self = false
  /\ (_enabled self = true -> _start self <> _end self ->
      is_on (_start self) self = true).
Proof. split; [apply is_on_at_end | apply is_on_at_start]. Qed.

Lemma window_bounds_witness :
  is_on (hms 6 0 0) night_window = false
  /\ is_on (hms 22 0 0) night_window = true.
Proof.
  split.
  - apply (proj1 (window_bounds night_window)).
  - apply (proj2 (window_bounds night_window)); [reflexivity | discriminate].
Defined.

(** X2. An entity is on at some time of the day exactly when it is
    enabled and its bounds differ; and there is always a time at which it
    is off: no setting of the three fields is on all day. *)
Theorem window_nonempty_iff (self : Timeslot) :
  ((exists now, is_on now self = true)
   <-> _enabled self = true /\ _start self <> _end self)
  /\ exists now, is_on now self = false.
Proof.
  split; [split | exists (_end self); apply is_on_at_end].
  - intros [now H]. split.
    + destruct (_enabled self) eqn:E; [reflexivity | ].
      rewrite (is_on_disabled now self E) in H. discriminate H.
    + intros Heq. rewrite (is_on_empty now self Heq) in H. discriminate H.
  - intros [He Hne]. exists (_start self). apply is_on_at_start; assumption.
Qed.

(** X3. Exchanging the bounds of an enabled window, through
    [async_set_parameters], gives the complement: at every time one of
    the two windows is on and the other is off. (For equal bounds both
    are empty.) *)
Theorem swapped_bounds_complement (now now' : time) (self : Timeslot) :
  _enabled self = true -> _start self <> _end self ->
  is_on now
    (async_set_parameters None None (Some (_end self)) (Some (_start self))
       now' self)
  = negb (is_on now self).
Proof.
  intros He Hne. rewrite is_on_set_bounds. unfold is_on. rewrite He.
  rewrite (ltb_negb_leb (_start self) now), (ltb_negb_leb (_end self) now).
  destruct (_start self <=? _end self)%time eqn:E.
  - destruct (_end self <=? _start self)%time eqn:E'.
    + destruct Hne. apply leb_antisym; assumption.
    + destruct (_start self <=? now)%time, (_end self <=? now)%time;
        reflexivity.
  - rewrite (leb_total _ _ E).
    destruct (_start self <=? now)%time, (_end self <=? now)%time;
      reflexivity.
Qed.

Lemma swapped_bounds_complement_witness :
  is_on (hms 12 0 0)
    (async_set_parameters None None (Some (hms 6 0 0)) (Some (hms 22 0 0))
       (hms 9 0 0) night_window)
  = negb (is_on (hms 12 0 0) night_window).
Proof.
  apply (swapped_bounds_complement (hms 12 0 0) (hms 9 0 0) night_window);
    [reflexivity | discriminate].
Defined.

(** X4. Day windows that meet add up: for [a <= b <= c], the window from
    [a] to [c] is on exactly when the window from [a] to [b] or the
    window from [b] to [c] is, and these two are never on together. *)
Theorem adjacent_windows (a b c now now' : time) (self : Timeslot) :
  (a <= b)%time -> (b <= c)%time ->
  let window x y :=
    async_set_parameters None None (Some x) (Some y) now' self in
  is_on now (window a c)
  = is_on now (window a b) || is_on now (window b c)
  /\ is_on now (window a b) && is_on now (window b c) = false.
Proof.
  intros Hab Hbc window. unfold window. rewrite !is_on_set_bounds.
  apply leb_le in Hab, Hbc. rewrite Hab, Hbc, (leb_trans _ _ _ Hab Hbc).
  rewrite (ltb_negb_leb b now).
  destruct (_enabled self); [ | split; reflexivity].
  destruct (b <=? now)%time eqn:E; cbn [andb orb negb].
  - rewrite (leb_trans _ _ _ Hab E). split; reflexivity.
  - assert (Hlt : (now <? b)%time = true)
      by (rewrite ltb_negb_leb, E; reflexivity).
    rewrite (ltb_leb_trans _ _ _ Hlt Hbc), !andb_true_r, !orb_false_r,
      andb_false_r.
    split; reflexivity.
Qed.

Lemma adjacent_windows_witness :
  let window x y :=
    async_set_parameters None None (Some x) (Some y) (hms 0 0 0)
      day_window in
  is_on (hms 12 30 0) (window (hms 8 0 0) (hms 17 0 0))
  = is_on (hms 12 30 0) (window (hms 8 0 0) (hms 12 0 0))
    || is_on (hms 12 30 0) (window (hms 12 0 0) (hms 17 0 0)).
Proof.
  apply (proj1 (adjacent_windows (hms 8 0 0) (hms 12 0 0) (hms 17 0 0)
                  (hms 12 30 0) (hms 0 0 0) day_window
                  ltac:(discriminate) ltac:(discriminate))).
Defined.

(* ===================================================================== *)
(** ** Construction *)
(* ===================================================================== *)

(** Midnight is the first time of the day. *)
Lemma midnight_least (t : time) :
  (Time.midnight <=? t)%time = true /\ (t <? Time.midnight)%time = false.
Proof.
  assert (H : (Time.midnight <=? t)%time = true).
  { destruct t as [h m s u]. unfold Time.leb, Time.cmp, Time.midnight.
    cbn [Time.hour Time.minute Time.second Time.microsecond].
    repeat match goal with
           | |- context [N.compare 0 ?y] =>
               destruct (N.compare_spec 0 y); subst; cbn [Time.lex]
           end; first [reflexivity | exfalso; lia]. }
  split; [exact H | rewrite ltb_negb_leb, H; reflexivity].
Qed.

(** X5. What the defaults of the constructor mean for the window. An
    entity whose configuration omits [enabled], or omits both [start]
    and [end], is off at every time. With [enabled] true and only
    [start] given (not midnight) it is on from [start] to the end of the
    day; with only [end] given it is on from midnight to [end]. *)
Theorem constructed_window (config : ConfigType) (now : time) :
  let self := __init__ config in
  (conf_enabled config = None -> is_on now self = false)
  /\ (conf_start config = None -> conf_end config = None ->
      is_on now self = false)
  /\ (forall s, conf_enabled config = Some true ->
                conf_start config = Some s -> conf_end config = None ->
                s <> Time.midnight ->
                is_on now self = (s <=? now)%time)
  /\ (forall e, conf_enabled config = Some true ->
                conf_start config = None -> conf_end config = Some e ->
                is_on now self = (now <? e)%time).
Proof.
  destruct config as [id_ name enabled start end_]. simpl.
  split; [ | split; [ | split]].
  - intros ->. apply is_on_disabled. reflexivity.
  - intros -> ->. apply is_on_empty. reflexivity.
  - intros s -> -> -> Hne. unfold is_on. simpl.
    destruct (s <=? Time.midnight)%time eqn:E.
    + destruct Hne. apply leb_antisym; [exact E | apply midnight_least].
    + rewrite (proj2 (midnight_least now)). apply orb_false_r.
  - intros e -> -> ->. unfold is_on. simpl.
    rewrite (proj1 (midnight_least e)), (proj1 (midnight_least now)).
    reflexivity.
Qed.

Lemma constructed_window_witness :
  is_on (hms 23 59 59) (__init__ start_only) = true
  /\ is_on (hms 12 0 0) (__init__ enabled_only) = false.
Proof.
  split.
  - rewrite (proj1 (proj2 (proj2
                 (constructed_window start_only (hms 23 59 59))))
               (hms 18 0 0) eq_refl eq_refl eq_refl ltac:(discriminate)).
    reflexivity.
  - apply (proj1 (proj2 (constructed_window enabled_only (hms 12 0 0))));
      reflexivity.
Defined.

(* ===================================================================== *)
(** ** How the switches compose *)
(* ===================================================================== *)

(** X6. After [turn_off] the entity is off at every time, whatever its
    window. Of [turn_on] and [turn_off] the last call wins, and switching
    an enabled entity off and on again gives the same entity back. *)
Theorem switch_off_and_on (now : time) (self : Timeslot) :
  is_on now (turn_off self) = false
  /\ turn_off (turn_on self) = turn_off self
  /\ turn_on (turn_off self) = turn_on self
  /\ (_enabled self = true -> turn_on (turn_off self) = self).
Proof.
  split; [apply is_on_disabled; reflexivity | ].
  split; [reflexivity | split; [reflexivity | ]].
  intros H. destruct self. simpl in H. subst. reflexivity.
Qed.

Lemma switch_off_and_on_witness :
  turn_on (turn_off night_window) = night_window.
Proof.
  apply (proj2 (proj2 (proj2 (switch_off_and_on (hms 0 0 0) night_window)))).
  reflexivity.
Defined.

(** X7. What a toggle does to the state. An entity that is on is off
    after the toggle. An entity that is off is on after the toggle only
    if [now] lies in its window: outside the window the toggle enables
    it and it stays off. Three toggles at one time are one toggle. *)
Theorem toggle_state (now : time) (self : Timeslot) :
  is_on now (async_toggle now self)
  = negb (is_on now self) && is_on now (turn_on self)
  /\ (is_on now self = true -> async_toggle now self = turn_off self)
  /\ (is_on now self = false -> async_toggle now self = turn_on self)
  /\ async_toggle now (async_toggle now (async_toggle now self))
     = async_toggle now self.
Proof.
  unfold async_toggle.
  destruct (is_on now self) eqn:E.
  - rewrite (is_on_disabled now (turn_off self) eq_refl).
    repeat split; try discriminate.
    replace (is_on now (turn_on (turn_off self))) with true; [reflexivity | ].
    rewrite <- E. symmetry. apply is_on_ext; try reflexivity.
    destruct (_enabled self) eqn:E'; [reflexivity | ].
    rewrite (is_on_disabled now self E') in E. discriminate E.
  - repeat split; try discriminate.
    destruct (is_on now (turn_on self)) eqn:E'.
    + rewrite (is_on_disabled now (turn_off (turn_on self)) eq_refl).
      reflexivity.
    + change (turn_on (turn_on self)) with (turn_on self). rewrite E'.
      reflexivity.
Qed.

Lemma toggle_state_witness :
  async_toggle (hms 9 0 0) day_window = turn_off day_window
  /\ async_toggle (hms 20 0 0) day_window = turn_on day_window.
Proof.
  split.
  - apply (proj1 (proj2 (toggle_state (hms 9 0 0) day_window))).
    reflexivity.
  - apply (proj1 (proj2 (proj2 (toggle_state (hms 20 0 0) day_window)))).
    reflexivity.
Defined.

(* ===================================================================== *)
(** ** More on the restore step *)
(* ===================================================================== *)

(** X8. What [async_added_to_hass] leaves alone, for every snapshot and
    however it ends: the name (a snapshot never restores it), the
    configuration, the ids, [editable], and the states written so far
    (it writes none). It registers the one-minute tick exactly when it
    returns: when it raises, no tick is registered. *)
Theorem added_to_hass_frame (old_state : option State) (self : Timeslot) :
  let self' := fst (async_added_to_hass old_state self) in
  let result := snd (async_added_to_hass old_state self) in
  _attr_name self' = _attr_name self
  /\ same_identity self self'
  /\ written (hass self') = written (hass self)
  /\ (result = Return tt ->
      intervals (hass self') = (intervals (hass self) ++ [1])%list)
  /\ (forall e, result = Raise e ->
      intervals (hass self') = intervals (hass self)).
Proof.
  run_restore self old_state; unfold same_identity; tidy;
    first [reflexivity | discriminate].
Qed.

Lemma added_to_hass_frame_witness :
  intervals
    (hass (fst (async_added_to_hass
                  (Some (snapshot (Some true) (Some "22:00:00")
                           (Some "06:00:00")))
                  (__init__ bare))))
  = [1]
  /\ intervals
       (hass (fst (async_added_to_hass
                     (Some (snapshot (Some true) None None))
                     (__init__ bare))))
     = [].
Proof.
  split.
  - apply (proj1 (proj2 (proj2 (proj2
             (added_to_hass_frame
                (Some (snapshot (Some true) (Some "22:00:00")
                         (Some "06:00:00")))
                (__init__ bare)))))).
    reflexivity.
  - apply (proj2 (proj2 (proj2 (proj2
             (added_to_hass_frame
                (Some (snapshot (Some true) None None))
                (__init__ bare)))))
             (KeyError ATTR_START)).
    reflexivity.
Defined.

(** X9. An entity whose configuration specifies [enabled], [start] and
    [end] does not read the snapshot: whatever the snapshot holds or
    lacks, [async_added_to_hass] does what it does without a snapshot,
    it returns, and the three fields keep their values. *)
Theorem configured_entity_ignores_snapshot (old_state : option State)
    (self : Timeslot) :
  conf_enabled (_config self) <> None ->
  conf_start (_config self) <> None ->
  conf_end (_config self) <> None ->
  async_added_to_hass old_state self = async_added_to_hass None self
  /\ snd (async_added_to_hass old_state self) = Return tt
  /\ _enabled (fst (async_added_to_hass old_state self)) = _enabled self
  /\ _start (fst (async_added_to_hass old_state self)) = _start self
  /\ _end (fst (async_added_to_hass old_state self)) = _end self.
Proof.
  intros He Hs Hd. destruct_entity self; simpl in He, Hs, Hd;
    try congruence.
  destruct old_state as [old |]; repeat split.
Qed.

Lemma configured_entity_ignores_snapshot_witness :
  snd (async_added_to_hass (Some (snapshot None (Some "25:61:00") None))
         night_window)
  = Return tt.
Proof.
  apply (configured_entity_ignores_snapshot
           (Some (snapshot None (Some "25:61:00") None)) night_window);
    discriminate.
Defined.

(** The restore scenario of X10: what the night window publishes at
    23:30 is restored into an entity with an empty configuration. *)
Lemma restore_published_state_witness :
  let run :=
    async_added_to_hass (Some (current_state (hms 23 30 0) night_window))
      (__init__ bare) in
  snd run = Return tt
  /\ _enabled (fst run) = true
  /\ _start (fst run) = hms 22 0 0
  /\ _end (fst run) = hms 6 0 0.
Proof.
  destruct (restore_published_state bare (hms 23 30 0) night_window
              eq_refl eq_refl) as (Hr & He & Hs & Hd).
  split; [exact Hr | ].
  split; [apply He; reflexivity | ].
  split; [apply Hs; reflexivity | apply Hd; reflexivity].
Defined.

(** X11. What survives a restart. After
    [async_set_parameters(name, enabled, start, end)] the last state
    written is the state of the entity; an entity constructed again from
    a configuration and restored from that state has the values of the
    call for the fields that the configuration omits, the configured
    values for the others, and the configured name: the name of the call
    is not restored. *)
Theorem parameters_after_restart (config : ConfigType)
    (name : option string) (enabled : bool) (start end_ now : time)
    (self : Timeslot) :
  Time.valid start = true -> Time.valid end_ = true ->
  let self1 :=
    async_set_parameters name (Some enabled) (Some start) (Some end_)
      now self in
  let old := current_state now self1 in
  let run := async_added_to_hass (Some old) (__init__ config) in
  written (hass self1) = (written (hass self) ++ [old])%list
  /\ snd run = Return tt
  /\ _enabled (fst run) = get_default (conf_enabled config) enabled
  /\ _start (fst run) = get_default (conf_start config) start
  /\ _end (fst run) = get_default (conf_end config) end_
  /\ _attr_name (fst run) = conf_name config.
Proof.
  intros Hs Hd.
  destruct self as [? ? ? ? ? ? ? ? ?], name as [n |];
    destruct config as [? ? [?|] [?|] [?|]];
    cbv -[Iso.fromisoformat Iso.malformed Iso.isoformat app];
    rewrite ?(fromisoformat_isoformat start Hs),
            ?(fromisoformat_isoformat end_ Hd);
    repeat split.
Qed.

Lemma parameters_after_restart_witness :
  let self1 :=
    async_set_parameters (Some "Late") (Some false) (Some (hms 23 0 0))
      (Some (hms 5 0 0)) (hms 12 0 0) night_window in
  let run :=
    async_added_to_hass (Some (current_state (hms 12 0 0) self1))
      (__init__ enabled_only) in
  _enabled (fst run) = true
  /\ _start (fst run) = hms 23 0 0
  /\ _attr_name (fst run) = None.
Proof.
  destruct (parameters_after_restart enabled_only (Some "Late") false
              (hms 23 0 0) (hms 5 0 0) (hms 12 0 0) night_window
              eq_refl eq_refl) as (_ & _ & He & Hs & _ & Hn).
  split; [exact He | split; [exact Hs | exact Hn]].
Defined.

(* ===================================================================== *)
(** ** Sequences of calls *)
(* ===================================================================== *)

Lemma perform_all_cons (c : call) (calls : list call) (self : Timeslot) :
  perform_all (c :: calls) self = perform_all calls (perform c self).
Proof. reflexivity. Qed.

(** One call: it keeps what the constructor fixed and registers no
    listener; it writes one state, the current one, if it is a
    publishing call, and none otherwise. *)
Lemma perform_identity (c : call) (self : Timeslot) :
  same_identity self (perform c self)
  /\ intervals (hass (perform c self)) = intervals (hass self).
Proof.
  destruct c as [| | now | name enabled start end_ now | now];
    unfold same_identity; simpl.
  - repeat split.
  - repeat split.
  - unfold async_toggle. destruct (is_on now self); repeat split.
  - destruct name, enabled, start, end_; repeat split.
  - repeat split.
Qed.

Lemma perform_written (c : call) (self : Timeslot) :
  written (hass (perform c self))
  = (written (hass self)
     ++ (if publishes c
         then match c with
              | SetParameters _ _ _ _ now | Update now =>
                  [current_state now (perform c self)]
              | _ => []
              end
         else []))%list.
Proof.
  destruct c as [| | now | name enabled start end_ now | now]; simpl.
  - symmetry. apply app_nil_r.
  - symmetry. apply app_nil_r.
  - unfold async_toggle. destruct (is_on now self); symmetry; apply app_nil_r.
  - destruct name, enabled, start, end_; reflexivity.
  - reflexivity.
Qed.

(** X12. No sequence of service calls and ticks changes what the
    constructor fixed: the configuration, the unique id, the entity id
    and [editable] are as they were, and no listener is registered. *)
Theorem calls_keep_identity (calls : list call) (self : Timeslot) :
  same_identity self (perform_all calls self)
  /\ intervals (hass (perform_all calls self)) = intervals (hass self).
Proof.
  revert self. induction calls as [| c calls IH]; intros self.
  - unfold same_identity. repeat split.
  - rewrite perform_all_cons.
    destruct (IH (perform c self)) as ((H1 & H2 & H3 & H4) & H5).
    destruct (perform_identity c self) as ((K1 & K2 & K3 & K4) & K5).
    unfold same_identity. repeat split; congruence.
Qed.

(** X13. Only [async_set_parameters] and the tick write a state. A
    sequence of calls keeps the states written before it and adds one
    state for each publishing call, in order; [turn_on], [turn_off] and
    the toggle write nothing, so a sequence of these alone leaves the
    written states as they are. *)
Theorem calls_written (calls : list call) (self : Timeslot) :
  (exists news,
      written (hass (perform_all calls self))
      = (written (hass self) ++ news)%list
      /\ List.length news = List.length (List.filter publishes calls))
  /\ (List.forallb (fun c => negb (publishes c)) calls = true ->
      hass (perform_all calls self) = hass self).
Proof.
  revert self. induction calls as [| c calls IH]; intros self.
  - split; [exists []; split; [symmetry; apply app_nil_r | reflexivity] | ].
    reflexivity.
  - rewrite perform_all_cons.
    destruct (IH (perform c self)) as ((news & Hw & Hl) & Hq). split.
    + rewrite Hw, perform_written, <- app_assoc. eexists. split;
        [reflexivity | ].
      rewrite length_app, Hl. simpl.
      destruct c; reflexivity.
    + simpl. intros H. apply andb_true_iff in H. destruct H as [Hc Hcs].
      rewrite (Hq Hcs).
      destruct c; simpl in Hc; try discriminate Hc; try reflexivity.
      unfold perform, async_toggle. destruct (is_on now self); reflexivity.
Qed.

Lemma calls_written_witness :
  hass (perform_all [TurnOff; Toggle (hms 9 0 0); TurnOn] day_window)
  = hass day_window.
Proof.
  apply (proj2 (calls_written [TurnOff; Toggle (hms 9 0 0); TurnOn]
                  day_window)).
  reflexivity.
Defined.

Lemma restorable_returns (old : State) (self : Timeslot) :
  restorable old -> snd (async_added_to_hass (Some old) self) = Return tt.
Proof.
  unfold restorable. destruct_entity self; run_state old; tidy;
    first [reflexivity | congruence].
Qed.

Lemma current_state_restorable (now : time) (self : Timeslot) :
  Time.valid (_start self) = true -> Time.valid (_end self) = true ->
  restorable (current_state now self).
Proof.
  intros Hs Hd. unfold restorable, current_state. simpl.
  split; [eexists; reflexivity | ].
  split; eexists; eexists; (split; [reflexivity | ]);
    apply fromisoformat_isoformat; assumption.
Qed.

Lemma perform_valid (c : call) (self : Timeslot) :
  valid_call c = true ->
  Time.valid (_start self) = true -> Time.valid (_end self) = true ->
  Time.valid (_start (perform c self)) = true
  /\ Time.valid (_end (perform c self)) = true.
Proof.
  intros Hc Hs Hd.
  destruct c as [| | now | name enabled start end_ now | now]; simpl.
  - split; assumption.
  - split; assumption.
  - unfold async_toggle. destruct (is_on now self); split; assumption.
  - simpl in Hc. apply andb_true_iff in Hc. destruct Hc as [Hc1 Hc2].
    destruct name, enabled, start, end_; simpl in *; split; assumption.
  - split; assumption.
Qed.

(** X14. Whatever a running entity writes can be restored. From an
    entity with times in range, under calls whose times are in range,
    the times stay in range and every state written holds the three
    attributes with texts that parse: restoring from any of them, into
    any entity, returns without an exception. *)
Theorem written_states_restore (calls : list call) (self : Timeslot) :
  Time.valid (_start self) = true -> Time.valid (_end self) = true ->
  List.forallb valid_call calls = true ->
  List.Forall restorable (written (hass self)) ->
  let self' := perform_all calls self in
  Time.valid (_start self') = true
  /\ Time.valid (_end self') = true
  /\ List.Forall restorable (written (hass self'))
  /\ forall old other,
       List.In old (written (hass self')) ->
       snd (async_added_to_hass (Some old) other) = Return tt.
Proof.
  intros Hs Hd Hc Hw self'.
  assert (H : Time.valid (_start self') = true
              /\ Time.valid (_end self') = true
              /\ List.Forall restorable (written (hass self'))).
  { subst self'. revert self Hs Hd Hc Hw.
    induction calls as [| c calls IH]; intros self Hs Hd Hc Hw.
    - repeat split; assumption.
    - rewrite perform_all_cons. simpl in Hc.
      apply andb_true_iff in Hc. destruct Hc as [Hc Hcs].
      destruct (perform_valid c self Hc Hs Hd) as [Hs' Hd'].
      apply IH; try assumption.
      rewrite perform_written. apply Forall_app. split; [exact Hw | ].
      destruct c; simpl; repeat constructor;
        apply current_state_restorable; assumption. }
  destruct H as (H1 & H2 & H3). repeat split; try assumption.
  intros old other Hin. apply restorable_returns.
  rewrite Forall_forall in H3. apply H3. exact Hin.
Qed.

Lemma written_states_restore_witness :
  let self' :=
    perform_all [SetParameters None None (Some (hms 7 30 0)) None (hms 9 0 0);
                 TurnOff; Update (hms 9 1 0)] day_window in
  List.Forall restorable (written (hass self')).
Proof.
  apply (written_states_restore
           [SetParameters None None (Some (hms 7 30 0)) None (hms 9 0 0);
            TurnOff; Update (hms 9 1 0)] day_window
           eq_refl eq_refl eq_refl (Forall_nil restorable)).
Defined.

(* ===================================================================== *)
(** ** Setup *)
(* ===================================================================== *)

Lemma append_inj (p a b : string) : (p ++ a = p ++ b)%string -> a = b.
Proof.
  induction p as [| x p IH]; simpl; intros H; [exact H | ].
  injection H as H. apply IH. exact H.
Qed.

Lemma NoDup_map_injective {A B : Type} (f : A -> B) (l : list A) :
  (forall a b, f a = f b -> a = b) ->
  List.NoDup l -> List.NoDup (List.map f l).
Proof.
  intros Hinj Hnd. induction Hnd as [| a l Hnotin Hnd IH]; simpl.
  - constructor.
  - constructor; [ | exact IH].
    intros Hin. apply List.in_map_iff in Hin.
    destruct Hin as (b & Hfb & Hb). apply Hinj in Hfb. subst b.
    contradiction.
Qed.

Lemma setup_entity_ids (items : list (string * option Conf)) :
  List.map entity_id (async_setup (Some items))
  = List.map (fun id_ => (DOMAIN ++ "." ++ id_)%string) (List.map fst items).
Proof.
  unfold async_setup. simpl. rewrite !List.map_map.
  apply List.map_ext. intros [id_ [body |]]; reflexivity.
Qed.

(** X15. [async_setup] builds one entity for each id of the domain's
    configuration, in the order of the configuration, with the unique id
    [id] and the entity id [timeslot.id]: distinct ids give distinct
    entity ids. An id without a body gives an entity that is off at every
    time, and a configuration without the domain gives no entity. *)
Theorem async_setup_entities (items : list (string * option Conf)) :
  List.map _attr_unique_id (async_setup (Some items)) = List.map fst items
  /\ List.map entity_id (async_setup (Some items))
     = List.map (fun id_ => (DOMAIN ++ "." ++ id_)%string)
         (List.map fst items)
  /\ (List.NoDup (List.map fst items) ->
      List.NoDup (List.map entity_id (async_setup (Some items))))
  /\ (forall id_, List.In (id_, None) items ->
      exists self, List.In self (async_setup (Some items))
                   /\ _attr_unique_id self = id_
                   /\ forall now, is_on now self = false)
  /\ async_setup None = [].
Proof.
  split; [ | split; [apply setup_entity_ids | split; [ | split]]].
  - unfold async_setup. simpl. rewrite List.map_map.
    apply List.map_ext. intros [id_ [body |]]; reflexivity.
  - intros Hnd. rewrite setup_entity_ids.
    apply NoDup_map_injective; [ | exact Hnd].
    intros a b H. apply (append_inj DOMAIN) in H. simpl in H.
    injection H as H. exact H.
  - intros id_ Hin. exists (__init__ (entity_config id_ None)).
    split; [ | split; [reflexivity | ]].
    + unfold async_setup. simpl.
      apply (List.in_map
               (fun item => __init__ (entity_config (fst item) (snd item)))
               items (id_, None) Hin).
    + intros now. apply is_on_disabled. reflexivity.
  - reflexivity.
Qed.

Lemma async_setup_entities_witness :
  List.NoDup
    (List.map entity_id
       (async_setup
          (Some [("office", Some {| body_name := None;
                                    body_enabled := Some true;
                                    body_start := Some (hms 8 0 0);
                                    body_end := Some (hms 17 0 0) |});
                 ("night", None)]))).
Proof.
  apply (proj1 (proj2 (proj2 (async_setup_entities _)))).
  simpl. constructor.
  - intros [H | []]. discriminate H.
  - constructor; [intros [] | constructor].
Defined.

(* ===================================================================== *)
(** ** Calls in a row *)
(* ===================================================================== *)

(** X16. Two calls of [async_set_parameters] in a row leave the fields
    that one call leaves whose arguments are those of the second call
    where given and of the first otherwise: the later value wins, field
    by field. The state written last is the same; the two calls write
    one state more. *)
Theorem set_parameters_twice (name1 name2 : option string)
    (enabled1 enabled2 : option bool) (start1 start2 end1 end2 : option time)
    (now1 now2 : time) (self : Timeslot) :
  let twice :=
    async_set_parameters name2 enabled2 start2 end2 now2
      (async_set_parameters name1 enabled1 start1 end1 now1 self) in
  let once :=
    async_set_parameters (or_else name2 name1) (or_else enabled2 enabled1)
      (or_else start2 start1) (or_else end2 end1) now2 self in
  _attr_name twice = _attr_name once
  /\ _enabled twice = _enabled once
  /\ _start twice = _start once
  /\ _end twice = _end once
  /\ current_state now2 twice = current_state now2 once
  /\ List.last (written (hass twice)) (current_state now2 self)
     = List.last (written (hass once)) (current_state now2 self)
  /\ List.length (written (hass twice))
     = S (List.length (written (hass once))).
Proof.
  destruct name1, name2, enabled1, enabled2, start1, start2, end1, end2;
    cbv [async_set_parameters assign_if_given or_else async_write_ha_state];
    simpl;
    rewrite ?List.last_last, ?length_app; simpl;
    repeat split; lia.
Qed.

(** X17. A switch shows at the next tick. [turn_off] writes no state;
    the tick that follows writes one, which says off and not enabled,
    whatever the window and the time. *)
Theorem turn_off_then_tick (now : time) (self : Timeslot) :
  let self' := perform_all [TurnOff; Update now] self in
  written (hass (turn_off self)) = written (hass self)
  /\ exists st,
       written (hass self') = (written (hass self) ++ [st])%list
       /\ state_value st = STATE_OFF
       /\ attr_enabled (attributes st) = Some false.
Proof.
  split; [reflexivity | ].
  exists (current_state now (turn_off self)).
  split; [reflexivity | split; [ | reflexivity]].
  unfold current_state, state. simpl.
  rewrite (is_on_disabled now (turn_off self) eq_refl). reflexivity.
Qed.

(** X18. The restore step is not all or nothing. What it assigned before
    it raises stays assigned: [enabled] is restored from the snapshot
    whenever the configuration omits it and the snapshot has it, also
    when a later field then raises, and so is [start] once [enabled] was
    passed; and when the step raises, [end], which comes last, has not
    been assigned. *)
Theorem restore_keeps_partial_work (self : Timeslot) (old : State) :
  let self' := fst (async_added_to_hass (Some old) self) in
  let result := snd (async_added_to_hass (Some old) self) in
  (forall v, conf_enabled (_config self) = None ->
             attr_enabled (attributes old) = Some v ->
             _enabled self' = v)
  /\ (forall text t, conf_start (_config self) = None ->
                     attr_start (attributes old) = Some text ->
                     Iso.fromisoformat text = Some t ->
                     (conf_enabled (_config self) <> None
                      \/ attr_enabled (attributes old) <> None) ->
                     _start self' = t)
  /\ (forall e, result = Raise e -> _end self' = _end self).
Proof.
  destruct_entity self; run_state old; tidy;
    first [reflexivity | congruence].
Qed.

Lemma restore_keeps_partial_work_witness :
  let run :=
    async_added_to_hass (Some (snapshot (Some true) (Some "22:00:00") None))
      (__init__ bare) in
  snd run = Raise (KeyError ATTR_END)
  /\ _enabled (fst run) = true
  /\ _start (fst run) = hms 22 0 0
  /\ _end (fst run) = Time.midnight.
Proof.
  destruct (restore_keeps_partial_work (__init__ bare)
              (snapshot (Some true) (Some "22:00:00") None))
    as (He & Hs & Hd).
  split; [reflexivity | ].
  split; [apply He; reflexivity | ].
  split.
  - apply (Hs "22:00:00" (hms 22 0 0)); try reflexivity.
    right. discriminate.
  - apply (Hd (KeyError ATTR_END)). reflexivity.
Defined.
